(** * Constructor manager: update orchestration and environment lifecycle

    A shallow embedding of
      - [constructor_manager_cli/actions.py] (module [Actions] below) and
      - [constructor_updater/cli.py]         (module [Cli] below)
    as state-passing functions over an explicit world: the directories on
    disk, the sentinel store, the process lock, standard output and a log
    of every call that leaves the process.  Python exceptions are values of
    [Exn]; a function that can raise returns [Raise e] together with the
    world as it was when the exception left it. *)

From Stdlib Require Import ZArith NArith Ascii String List Bool Lia.
From stdpp Require Import base gmap sets list strings.

Local Open Scope Z_scope.
Local Open Scope string_scope.
Local Open Scope list_scope.

(** ** Python values and exceptions *)

Inductive Exn : Type :=
  | ValueError          (* tuple unpacking with the wrong number of values *)
  | KeyError            (* missing dictionary key *)
  | AttributeError (attr : string)
  | TypeError
  | UnboundLocalError
  | IndexError
  | FileNotFoundError
  | FileExistsError
  | LockError           (* low-level failure inside the lock module *)
  | SystemExit (code : Z).

Inductive Res (A : Type) : Type :=
  | Ok (a : A)
  | Raise (e : Exn).
Arguments Ok {A} a.
Arguments Raise {A} e.

(** [SystemExit] derives from [BaseException], not from [Exception]:
    an [except Exception] clause does not catch it. *)
Definition is_Exception (e : Exn) : bool :=
  match e with SystemExit _ => false | _ => true end.

(** What a function hands back to its caller when the caller inspects it:
    [update] has no [return] statement and yields [PyNone]. *)
Inductive PyVal : Type :=
  | PyNone
  | PyInt (z : Z)
  | PyStr (s : string)
  | PyStrList (l : list string).


(** Truth value of a Python [int]. *)
Definition truthy (z : Z) : bool := negb (Z.eqb z 0).

(** Truth value of a job handle that may still be [None]. *)
Definition truthy_opt (j : option Z) : bool :=
  match j with Some z => truthy z | None => false end.

(** Truth value of a [str]. *)
Definition truthy_str (s : string) : bool :=
  match s with EmptyString => false | _ => true end.

(** ** The process lock

    Modelled from the spec: the class [FilesystemLock] of
    [constructor_updater.utils.locking] is not part of the sources.  The
    lock is Unlocked or Held by a live process; an artifact that the lock
    module cannot read is Corrupted, and records what kind of filesystem
    object it is and whether the operating system lets us remove it. *)

Inductive ArtifactKind : Type := KLink | KDir | KOther.

Inductive LockState : Type :=
  | Unlocked
  | Held (pid : Z)
  | Corrupted (kind : ArtifactKind) (removable : bool).

(** ** Calls that leave the process *)

Inductive Event : Type :=
  | EvList (prefix : string)
  | EvCreate (specs : list string) (prefix : string) (job code : Z)
  | EvInstall (specs : list string) (prefix : string) (job code : Z)
  | EvRemove (prefix : string) (job code : Z)
  | EvSaveState (package_name : string)
  | EvCreateSentinel (package_name version : string)
  | EvRemoveSentinel (package_name version : string)
  | EvRename (src dst : string)
  | EvRmtree (path : string)
  | EvLock
  | EvUnlock
  | EvClearLock.

#[global] Instance Event_eq_dec : EqDecision Event.
Proof. solve_decision. Defined.

(** One entry of [installer.list(prefix)]. *)
Record PkgItem : Type := { item_name : string; item_version : string }.

(** The dictionary returned by [check_updates]. *)
Record UpdateInfo : Type := {
  available_versions : list string;
  current_version : string;
  latest_version : string;
  previous_version : string;
  found_versions : list string;
  update_flag : bool;          (* key "update" *)
  installed : bool
}.

Inductive Output : Type :=
  | OutText (s : string)
  | OutJson (d : UpdateInfo).

(** A request to the package manager and what it answers. *)
Inductive Call : Type :=
  | BCreate (specs : list string) (prefix : string)
  | BInstall (specs : list string) (prefix : string)
  | BRemove (prefix : string).

Record InstallerCfg : Type := {
  cfg_pinned : option string;
  cfg_channel : option string
}.

Record Reply (S : Type) : Type := {
  r_job : Z;                 (* the job handle returned to the caller *)
  r_code : Z;                (* the exit status recorded for that job *)
  r_dirs : gset string;      (* the directories on disk afterwards *)
  r_backend : S              (* the package manager's own state afterwards *)
}.
Arguments r_job {S} _.
Arguments r_code {S} _.
Arguments r_dirs {S} _.
Arguments r_backend {S} _.

(** ** Collaborators outside the sources

    Everything [actions.py] and [cli.py] import from modules that are not
    part of the sources is a field of this interface; the development is
    parametric in it.  [parse_conda_version_spec] returns a Python tuple,
    kept as a list because its callers unpack it into two names in some
    places and into three in others.  The package manager is a function of
    the request, the directories on disk and a state of its own, so the
    same request may be answered differently each time. *)
Class Collaborators : Type := {
  Backend : Type;
  ParsedVersion : Type;
  DEFAULT_CHANNEL : string;
  os_name : string;
  self_pid : Z;
  parse_conda_version_spec : string → list string;
  get_prefix_by_name : string → string;
  conda_package_versions : string → string → Res (list string);
  plugin_versions : string → list string;
  sort_versions : list string → list string;
  is_stable_version : string → bool;
  parse_version : string → ParsedVersion;
  version_gt : ParsedVersion → ParsedVersion → bool;
  get_installed_versions :
    string → gset string → gset (string * string) → list (string * string);
  get_broken_envs :
    string → gset string → gset (string * string) → list string;
  backend_run : InstallerCfg → Call → gset string → Backend → Reply Backend;
  backend_list : InstallerCfg → string → gset string → Backend → list PkgItem
}.

(** ** The world and the monad of actions *)

Section World.
Context `{Collaborators}.

Record World : Type := {
  dirs : gset string;                    (* environment directories on disk *)
  sentinels : gset (string * string);    (* (package_name, version) *)
  lock_state : LockState;
  stdout : list Output;
  trace : list Event;                    (* oldest first *)
  oracle : Backend
}.

Definition M (A : Type) : Type := World → Res A * World.

Definition ret {A} (a : A) : M A := λ w, (Ok a, w).

Definition bind {A B} (m : M A) (k : A → M B) : M B :=
  λ w, match m w with
       | (Ok a, w') => k a w'
       | (Raise e, w') => (Raise e, w')
       end.

Definition raise {A} (e : Exn) : M A := λ w, (Raise e, w).

Definition lift {A} (r : Res A) : M A := λ w, (r, w).

(** [try: m except Exception as e: h e] *)
Definition try_except {A} (m : M A) (h : Exn → M A) : M A :=
  λ w, match m w with
       | (Ok a, w') => (Ok a, w')
       | (Raise e, w') => if is_Exception e then h e w' else (Raise e, w')
       end.

(** [try: a = m except Exception as e: return h e] followed by [k a] *)
Definition try_except_else {A B} (m : M A) (h : Exn → M B) (k : A → M B)
    : M B :=
  λ w, match m w with
       | (Ok a, w') => k a w'
       | (Raise e, w') => if is_Exception e then h e w' else (Raise e, w')
       end.

Definition log (e : Event) : M unit :=
  λ w, (Ok tt, {| dirs := dirs w; sentinels := sentinels w;
                  lock_state := lock_state w; stdout := stdout w;
                  trace := trace w ++ [e]; oracle := oracle w |}).

Definition put_dirs (d : gset string) : M unit :=
  λ w, (Ok tt, {| dirs := d; sentinels := sentinels w;
                  lock_state := lock_state w; stdout := stdout w;
                  trace := trace w; oracle := oracle w |}).

Definition put_sentinels (s : gset (string * string)) : M unit :=
  λ w, (Ok tt, {| dirs := dirs w; sentinels := s;
                  lock_state := lock_state w; stdout := stdout w;
                  trace := trace w; oracle := oracle w |}).

Definition put_lock (l : LockState) : M unit :=
  λ w, (Ok tt, {| dirs := dirs w; sentinels := sentinels w;
                  lock_state := l; stdout := stdout w;
                  trace := trace w; oracle := oracle w |}).

Definition put_oracle (b : Backend) : M unit :=
  λ w, (Ok tt, {| dirs := dirs w; sentinels := sentinels w;
                  lock_state := lock_state w; stdout := stdout w;
                  trace := trace w; oracle := b |}).

Definition write_stdout (o : Output) : M unit :=
  λ w, (Ok tt, {| dirs := dirs w; sentinels := sentinels w;
                  lock_state := lock_state w; stdout := stdout w ++ [o];
                  trace := trace w; oracle := oracle w |}).

Definition get_world : M World := λ w, (Ok w, w).
End World.

#[global] Instance M_ret `{Collaborators} : MRet M := @ret _.
#[global] Instance M_bind `{Collaborators} : MBind M :=
  λ A B k m, bind m k.

Section Runtime.
Context `{Collaborators}.

(** [print(...)] *)
Definition print (s : string) : M unit := write_stdout (OutText s).

(** [os.path.isdir(path)] *)
Definition isdir (path : string) : M bool :=
  w ← get_world; mret (bool_decide (path ∈ dirs w)).

(** [os.rename(src, dst)]: the source must exist and the destination,
    a directory with content, must not. *)
Definition rename (src dst : string) : M unit :=
  log (EvRename src dst);;
  w ← get_world;
  if negb (bool_decide (src ∈ dirs w)) then raise FileNotFoundError
  else if bool_decide (dst ∈ dirs w) then raise FileExistsError
  else put_dirs ({[dst]} ∪ dirs w ∖ {[src]}).

(** [shutil.rmtree(path)] *)
Definition rmtree (path : string) : M unit :=
  log (EvRmtree path);;
  w ← get_world;
  if bool_decide (path ∈ dirs w) then put_dirs (dirs w ∖ {[path]})
  else raise FileNotFoundError.

(** ** Sentinel store

    Modelled from the spec: [create_sentinel_file] and
    [remove_sentinel_file] of [utils.io] are not part of the sources; a
    Sentinel is a durable record keyed by (package_name, version). *)
Definition create_sentinel_file (package_name version : string) : M unit :=
  log (EvCreateSentinel package_name version);;
  w ← get_world;
  put_sentinels ({[(package_name, version)]} ∪ sentinels w).

Definition remove_sentinel_file (package_name version : string) : M unit :=
  log (EvRemoveSentinel package_name version);;
  w ← get_world;
  put_sentinels (sentinels w ∖ {[(package_name, version)]}).

(** [save_state_file(package_name, packages, channel, dev, plugins)]
    writes the snapshot; nothing reads it back in these sources. *)
Definition save_state_file (package_name : string) (packages : list PkgItem)
    (channel : string) (dev : bool) (available_plugins : list string) : M unit :=
  log (EvSaveState package_name).

(** Tuple unpacking: [a, b = t] and [a, b, c = t]. *)
Definition unpack2 (t : list string) : M (string * string) :=
  match t with
  | [a; b] => mret (a, b)
  | _ => raise ValueError
  end.

Definition unpack3 (t : list string) : M (string * string * string) :=
  match t with
  | [a; b; c] => mret (a, b, c)
  | _ => raise ValueError
  end.
End Runtime.

(** ** The installer adapter

    Modelled from the spec: the class [CondaInstaller] of
    [constructor_manager_cli.installer] is not part of the sources.  Each
    of [create], [install] and [remove] runs one job of the package manager
    to completion, returns its handle and records its exit status in the
    dictionary [_exit_codes] of the installer object; [list] reads the
    packages of a prefix. *)
Section Installer.
Context `{Collaborators}.

Record Installer : Type := {
  inst_cfg : InstallerCfg;
  _exit_codes : gmap Z Z
}.

Definition CondaInstaller (pinned channel : option string) : Installer :=
  {| inst_cfg := {| cfg_pinned := pinned; cfg_channel := channel |};
     _exit_codes := ∅ |}.

Definition event_of (c : Call) (job code : Z) : Event :=
  match c with
  | BCreate specs prefix => EvCreate specs prefix job code
  | BInstall specs prefix => EvInstall specs prefix job code
  | BRemove prefix => EvRemove prefix job code
  end.

Definition run_job (installer : Installer) (c : Call) : M (Z * Installer) :=
  w ← get_world;
  let r := backend_run (inst_cfg installer) c (dirs w) (oracle w) in
  put_dirs (r_dirs r);;
  put_oracle (r_backend r);;
  log (event_of c (r_job r) (r_code r));;
  mret (r_job r,
        {| inst_cfg := inst_cfg installer;
           _exit_codes := <[r_job r := r_code r]> (_exit_codes installer) |}).

Definition installer_create installer (specs : list string) (prefix : string) :=
  run_job installer (BCreate specs prefix).

Definition installer_install installer (specs : list string) (prefix : string) :=
  run_job installer (BInstall specs prefix).

Definition installer_remove installer (prefix : string) :=
  run_job installer (BRemove prefix).

Definition installer_list (installer : Installer) (prefix : string)
    : M (list PkgItem) :=
  log (EvList prefix);;
  w ← get_world;
  mret (backend_list (inst_cfg installer) prefix (dirs w) (oracle w)).

(** [installer._exit_codes[job_id]] *)
Definition exit_code (installer : Installer) (job_id : Z) : M Z :=
  match _exit_codes installer !! job_id with
  | Some c => mret c
  | None => raise KeyError
  end.
End Installer.

(** ** Python list primitives used by [check_updates] *)

(** [l[-1] if l else ""] *)
Definition last_or_empty (l : list string) : string :=
  match l with
  | [] => ""
  | _ => List.last l ""
  end.

(** [l.index(x)]: position of the first occurrence. *)
Fixpoint list_index (x : string) (l : list string) : option nat :=
  match l with
  | [] => None
  | y :: l' => if bool_decide (y = x) then Some O
               else option_map S (list_index x l')
  end.

(** [l[i]] for a Python [int] index: a negative index counts from the
    end, so [l[-1]] is the last element. *)
Definition getitem (l : list string) (i : Z) : option string :=
  let n := Z.of_nat (length l) in
  let j := if (i <? 0)%Z then (i + n)%Z else i in
  if ((0 <=? j) && (j <? n))%Z then l !! Z.to_nat j else None.

Module Actions.
Section Actions.
Context `{Collaborators}.

Definition _create_with_plugins (package_name version build_string : string)
    (plugins : option (list string)) (channel : string) : M Z :=
  let spec := package_name +:+ "=" +:+ version +:+ "=*" +:+ build_string +:+ "*" in
  let prefix := get_prefix_by_name (package_name +:+ "-" +:+ version) in
  let installer := CondaInstaller (Some spec) (Some channel) in
  packages ← match plugins with
             | Some ps => mret (spec :: ps)
             | None => raise UnboundLocalError
             end;
  '(job_id, installer) ← installer_create installer packages prefix;
  exit_code installer job_id.

(** [for plugin in plugins: installer.install([plugin], prefix=...)]:
    the handle of each job is dropped. *)
Fixpoint install_each (installer : Installer) (plugins : list string)
    (prefix : string) : M Installer :=
  match plugins with
  | [] => mret installer
  | plugin :: rest =>
      '(_, installer) ← installer_install installer [plugin] prefix;
      install_each installer rest prefix
  end.

Definition _create_with_plugins_one_by_one
    (package_name version build_string : string)
    (plugins : list string) (channel : string) : M Z :=
  let spec := package_name +:+ "=" +:+ version +:+ "=*" +:+ build_string +:+ "*" in
  let prefix := get_prefix_by_name (package_name +:+ "-" +:+ version) in
  let installer := CondaInstaller (Some spec) (Some channel) in
  '(job_id, installer) ← installer_create installer [spec] prefix;
  installer ← install_each installer plugins prefix;
  exit_code installer job_id.

Definition check_updates (package : string) (dev : bool) (channel : string)
    : M UpdateInfo :=
  '(package_name, current_version, _) ←
      unpack3 (parse_conda_version_spec package);
  versions ← lift (conda_package_versions package_name channel);
  let versions := sort_versions versions in
  let versions :=
    if negb dev then List.filter is_stable_version versions else versions in
  let latest := last_or_empty versions in
  w ← get_world;
  let installed_versions_builds :=
    get_installed_versions package_name (dirs w) (sentinels w) in
  let installed_versions := map fst installed_versions_builds in
  let update := version_gt (parse_version latest) (parse_version current_version) in
  let filtered_version := versions in
  previous ←
    (if bool_decide (current_version ∈ filtered_version) then
       match list_index current_version filtered_version with
       | None => raise ValueError
       | Some index =>
           match getitem filtered_version (Z.of_nat index - 1) with
           | Some v => mret v
           | None => raise IndexError
           end
       end
     else mret "");
  mret {| available_versions := versions;
          current_version := current_version;
          latest_version := latest;
          previous_version := previous;
          found_versions := installed_versions;
          update_flag := update;
          installed := bool_decide (latest ∈ installed_versions) |}.

(** The loop that builds [filtered_packages] in [update]: the names of
    the installed packages that the plugin catalog knows. *)
Definition filter_plugins (packages : list PkgItem)
    (available_plugins : list string) : list string :=
  map item_name
    (List.filter (λ item, bool_decide (item_name item ∈ available_plugins))
                 packages).

Definition update (package : string) (dev : bool) (channel : string)
    (plugins : option (list string)) (plugins_url : option string) : M PyVal :=
  '(package_name, current_version, build_string) ←
      unpack3 (parse_conda_version_spec package);
  data ← check_updates package dev channel;
  let latest := latest_version data in
  let available_plugins :=
    match plugins_url with
    | Some url => if truthy_str url then plugin_versions url else []
    | None => []
    end in
  let prefix := get_prefix_by_name (package_name +:+ "-" +:+ current_version) in
  let installer := CondaInstaller None (Some channel) in
  packages ← installer_list installer prefix;
  save_state_file package_name packages channel dev available_plugins;;
  let filtered_packages := filter_plugins packages available_plugins in
  return_code ← _create_with_plugins package_name latest build_string
                  (Some filtered_packages) channel;
  return_code ←
    (if truthy return_code then
       _create_with_plugins_one_by_one package_name latest build_string
         filtered_packages channel
     else mret return_code);
  (if negb (truthy return_code) then create_sentinel_file package_name latest
   else mret tt);;
  mret PyNone.

(** The first loop of [clean_all]. *)
Fixpoint remove_each (installer : Installer) (prefixes failed : list string)
    : M (list string) :=
  match prefixes with
  | [] => mret failed
  | prefix :: rest =>
      '(job_id, installer) ← installer_remove installer prefix;
      code ← exit_code installer job_id;
      remove_each installer rest
        (if truthy code then failed ++ [prefix] else failed)
  end.

Definition clean_all (package : string) : M PyVal :=
  '(package_name, _) ← unpack2 (parse_conda_version_spec package);
  let installer := CondaInstaller None None in
  w ← get_world;
  failed ← remove_each installer
             (get_broken_envs package_name (dirs w) (sentinels w)) [];
  (* for prefix in failed: pass *)
  mret PyNone.

(** The loop of [check_updates_clean_and_launch]. *)
Fixpoint remove_other_sentinels (package_name latest : string)
    (found_versions : list string) : M unit :=
  match found_versions with
  | [] => mret tt
  | version :: rest =>
      (if negb (bool_decide (version = latest))
       then remove_sentinel_file package_name version
       else mret tt);;
      remove_other_sentinels package_name latest rest
  end.

Definition check_updates_clean_and_launch (package : string) (dev : bool)
    (channel : string) : M PyVal :=
  '(package_name, version) ← unpack2 (parse_conda_version_spec package);
  res ← check_updates package_name dev channel;
  let found := found_versions res in
  if installed res then
    remove_other_sentinels package_name (latest_version res) found;;
    clean_all package_name
  else mret PyNone.

Definition remove (package : string) : M PyVal :=
  let installer := CondaInstaller None None in
  '(package_name, version) ← unpack2 (parse_conda_version_spec package);
  let prefix := get_prefix_by_name (package_name +:+ "-" +:+ version) in
  '(job_id, installer) ← installer_remove installer prefix;
  if truthy job_id then
    print ("removing " +:+ prefix);;
    rmtree prefix;;
    mret PyNone
  else mret PyNone.

Definition restore (package : string) (channel : string) : M Z :=
  '(package_name, current_version) ←
      unpack2 (parse_conda_version_spec package);
  let env_name := package_name +:+ "-" +:+ current_version in
  let prefix := get_prefix_by_name env_name in
  let installer := CondaInstaller None (Some channel) in
  present ← isdir prefix;
  '(job_id_remove, installer) ←
      (if (present : bool) then
         '(job_id, installer) ← installer_remove installer prefix;
         mret (Some job_id, installer)
       else mret (None, installer)) : M (option Z * Installer);
  still_there ← (if truthy_opt job_id_remove then isdir prefix else mret false);
  broken_prefix ←
      (if (still_there : bool) then
         rename prefix (prefix +:+ "-broken");;
         mret (prefix +:+ "-broken")
       else mret "");
  '(job_id_restore, installer) ← installer_create installer [package] prefix;
  leftover ←
      (if truthy_str broken_prefix && truthy_opt job_id_remove
       then isdir broken_prefix else mret false);
  (if (leftover : bool) then
     print ("removing " +:+ broken_prefix);;
     rmtree broken_prefix
   else mret tt);;
  exit_code installer job_id_restore.
End Actions.
End Actions.

(** ** Command line front end ([cli.py]) *)

(** A value stored in an [argparse.Namespace]. *)
Inductive ArgVal : Type :=
  | AStr (s : string)
  | ABool (b : bool)
  | AList (l : list string).

#[global] Instance ArgVal_eq_dec : EqDecision ArgVal.
Proof. solve_decision. Defined.

(** What the user typed: the subcommand, the positional package and the
    options given ([None], [[]] and [false] when an option is absent). *)
Record CommandLine : Type := {
  cl_command : option string;
  cl_package : string;
  cl_current_version : option string;
  cl_channel : option string;
  cl_plugins : list string;
  cl_dev : bool
}.

Module Cli.
Section Cli.
Context `{Collaborators}.

(** A subparser is the list of attribute names it defines. *)
Definition _create_parser (subparser : list string)
    (current_version channel plugins dev : bool) : list string :=
  subparser ++ ["package"]
    ++ (if current_version then ["current_version"] else [])
    ++ (if channel then ["channel"] else [])
    ++ (if plugins then ["plugins"] else [])
    ++ (if dev then ["dev"] else []).

(** The subparsers [main] registers, in order. *)
Definition subparsers : list (string * list string) :=
  [ ("check-updates", _create_parser [] false true false true);
    ("update", _create_parser [] false true true true);
    ("check-launch-clean", _create_parser [] false true true true);
    ("restore", _create_parser [] false true false false);
    ("clean", _create_parser [] false false false false);
    ("clean-lock", _create_parser [] false false false false) ].

Definition defines (dests : list string) (name : string) : bool :=
  bool_decide (name ∈ dests).

(** [parser.parse_args()] for the parser built by [main]: an unknown
    subcommand, an option the subparser does not define or a missing
    required option exits with status 2; no subcommand at all prints
    the help and exits with status 0.  The namespace holds [command] and
    exactly the attributes of the chosen subparser. *)
Definition parse_args (cl : CommandLine) : Res (gmap string ArgVal) :=
  match cl_command cl with
  | None => Raise (SystemExit 0)
  | Some command =>
      match list_find (λ p, p.1 = command) subparsers with
      | None => Raise (SystemExit 2)
      | Some (_, (_, dests)) =>
          if (bool_decide (is_Some (cl_current_version cl))
                && negb (defines dests "current_version"))
             || (bool_decide (is_Some (cl_channel cl))
                && negb (defines dests "channel"))
             || (negb (bool_decide (cl_plugins cl = []))
                && negb (defines dests "plugins"))
             || (cl_dev cl && negb (defines dests "dev"))
             || (defines dests "current_version"
                && negb (bool_decide (is_Some (cl_current_version cl))))
          then Raise (SystemExit 2)
          else
            let ns : gmap string ArgVal :=
              {[ "command" := AStr command; "package" := AStr (cl_package cl) ]} in
            let ns := match cl_current_version cl with
                      | Some v => <["current_version" := AStr v]> ns
                      | None => ns
                      end in
            let ns := if defines dests "channel"
                      then <["channel" :=
                               AStr (default DEFAULT_CHANNEL (cl_channel cl))]> ns
                      else ns in
            let ns := if defines dests "plugins"
                      then <["plugins" := AList (cl_plugins cl)]> ns
                      else ns in
            let ns := if defines dests "dev"
                      then <["dev" := ABool (cl_dev cl)]> ns
                      else ns in
            Ok ns
      end
  end.

(** [args.name] *)
Definition getattr (args : gmap string ArgVal) (name : string) : M ArgVal :=
  match args !! name with
  | Some v => mret v
  | None => raise (AttributeError name)
  end.

(** The actions are typed; a namespace built by [parse_args] always
    holds a [str] for [package] and [channel] and a [bool] for [dev]. *)
Definition as_str (v : ArgVal) : M string :=
  match v with AStr s => mret s | _ => raise TypeError end.

Definition as_bool (v : ArgVal) : M bool :=
  match v with ABool b => mret b | _ => raise TypeError end.

(** [lock.lock()] and [lock.unlock()].
    Modelled from the spec: [lock] returns true if this call acquired the
    lock and false if another live process holds it, and raises on an
    artifact it cannot read; [unlock] releases a lock this process holds. *)
Definition lock_lock : M bool :=
  log EvLock;;
  w ← get_world;
  match lock_state w with
  | Unlocked => put_lock (Held self_pid);; mret true
  | Held _ => mret false
  | Corrupted _ _ => raise LockError
  end.

Definition lock_unlock : M unit :=
  log EvUnlock;;
  w ← get_world;
  match lock_state w with
  | Held pid => if bool_decide (pid = self_pid) then put_lock Unlocked
                else raise LockError
  | _ => raise LockError
  end.

(** [os.path.isdir(lock_file)] and [os.path.islink(lock_file)].
    Modelled from the spec: the artifact of a held lock is a directory
    on Windows and a symbolic link elsewhere. *)
Definition lock_isdir (l : LockState) : bool :=
  match l with
  | Corrupted KDir _ => true
  | Held _ => bool_decide (os_name = "nt")
  | _ => false
  end.

Definition lock_islink (l : LockState) : bool :=
  match l with
  | Corrupted KLink _ => true
  | Held _ => negb (bool_decide (os_name = "nt"))
  | _ => false
  end.

Definition removable (l : LockState) : bool :=
  match l with
  | Corrupted _ r => r
  | _ => true
  end.

(** [shutil.rmtree(lock_file, ignore_errors=True)] *)
Definition rmtree_lock_ignore_errors : M unit :=
  log EvClearLock;;
  w ← get_world;
  if removable (lock_state w) then put_lock Unlocked else mret tt.

(** [os.unlink(lock_file)] *)
Definition unlink_lock : M unit :=
  log EvClearLock;;
  w ← get_world;
  if removable (lock_state w) then put_lock Unlocked
  else raise FileNotFoundError.

(** [json.dumps(e)] for an exception object [e], and
    [sys.stderr.write(d)] for a dictionary [d]: both raise [TypeError]. *)
Definition json_dumps_exn (e : Exn) : M string := raise TypeError.
Definition stderr_write_dict (error : option string) : M unit := raise TypeError.

(** [check_updates] and [restore] are the actions imported at the top
    of [cli.py]. *)
Definition _execute (args : gmap string ArgVal) (lock_created : option bool)
    : M unit :=
  command ← getattr args "command";
  if bool_decide (command = AStr "check-updates") then
    package ← getattr args "package" ≫= as_str;
    dev ← getattr args "dev" ≫= as_bool;
    channel ← getattr args "channel" ≫= as_str;
    res ← Actions.check_updates package dev channel;
    write_stdout (OutJson res)
  else
    (* if args.command == "clean-lock": pass *)
    if default false lock_created then
      print "RUNNING";;
      (if bool_decide (command = AStr "update") then
         _ ← getattr args "package";
         _ ← getattr args "current_version";
         _ ← getattr args "stable";
         _ ← getattr args "channel";
         (* four positional arguments for check_updates(package, dev, channel) *)
         raise TypeError
       else if bool_decide (command = AStr "restore") then
         package ← getattr args "package" ≫= as_str;
         channel ← getattr args "channel" ≫= as_str;
         _ ← Actions.restore package channel;
         mret tt
       else
         (* "check-clean" and "clean": pass *)
         mret tt);;
      (* time.sleep(5) *)
      lock_unlock
    else print "ALREADY RUNNING!".

Definition _handle_excecute (args : gmap string ArgVal)
    (lock_created : option bool) : M unit :=
  try_except (_execute args lock_created)
    (λ e, try_except (s ← json_dumps_exn e; stderr_write_dict (Some s))
            (λ e, stderr_write_dict None)).

(** The [except Exception:] block of [main] around [lock.lock()]. *)
Definition clear_stale_lock : M unit :=
  try_except
    (w ← get_world;
     if bool_decide (os_name = "nt") then
       if lock_isdir (lock_state w) then rmtree_lock_ignore_errors else mret tt
     else
       if lock_islink (lock_state w) then unlink_lock else mret tt)
    (λ _, mret tt).

Definition main (cl : CommandLine) : M unit :=
  args ← lift (parse_args cl);
  try_except_else lock_lock
    (λ _, clear_stale_lock;; _handle_excecute args None)
    (λ lock_created, _handle_excecute args (Some lock_created)).
End Cli.
End Cli.

(** ** Reading a trace *)

Definition job_of (e : Event) : option Z :=
  match e with
  | EvCreate _ _ job _ | EvInstall _ _ job _ | EvRemove _ job _ => Some job
  | _ => None
  end.

(** The handles of the jobs in a trace, in order. *)
Definition job_ids (evs : list Event) : list Z := omap job_of evs.

(** The exit statuses of the [create] jobs in a trace, in order. *)
Definition create_codes (evs : list Event) : list Z :=
  omap (λ e, match e with EvCreate _ _ _ code => Some code | _ => None end) evs.



Definition is_install_of (prefix plugin : string) (e : Event) : Prop :=
  ∃ job code, e = EvInstall [plugin] prefix job code.

Definition is_remove_job (e : Event) : Prop := ∃ p j c, e = EvRemove p j c.

Section Reading.
Context `{Collaborators}.




(** The world after one more logged call. *)
Definition with_event (w : World) (e : Event) : World :=
  {| dirs := dirs w; sentinels := sentinels w; lock_state := lock_state w;
     stdout := stdout w; trace := trace w ++ [e]; oracle := oracle w |}.
End Reading.

(** ** A concrete set of collaborators

    Stand-ins for the modules that are not part of the sources, used only
    to evaluate runs: a package manager that answers from a script, a
    channel with three versions of one package, versions compared by their
    dotted numbers, and a spec parser that splits on the equals sign. *)
Module Scenario.

Fixpoint split_eq (s : string) : list string :=
  match s with
  | EmptyString => [""]
  | String c s' =>
      if Ascii.eqb c "="%char then "" :: split_eq s'
      else match split_eq s' with
           | [] => [String c ""]
           | p :: ps => String c p :: ps
           end
  end.

Definition digit (c : ascii) : option N :=
  let n := N_of_ascii c in
  if ((48 <=? n) && (n <=? 57))%N then Some (n - 48)%N else None.

(** The numeric release of a version; a qualifier ends it. *)
Fixpoint release (s : string) (cur : N) : list N :=
  match s with
  | EmptyString => [cur]
  | String c s' =>
      match digit c with
      | Some d => release s' (10 * cur + d)%N
      | None => if Ascii.eqb c "."%char then cur :: release s' 0%N else [cur]
      end
  end.

Fixpoint lex_gt (a b : list N) : bool :=
  match a, b with
  | [], _ => false
  | _ :: _, [] => true
  | x :: a', y :: b' =>
      if (y <? x)%N then true
      else if (x <? y)%N then false
      else lex_gt a' b'
  end.

Fixpoint all_chars (p : ascii → bool) (s : string) : bool :=
  match s with
  | EmptyString => true
  | String c s' => p c && all_chars p s'
  end.

Definition stable (v : string) : bool :=
  all_chars (λ c, bool_decide (is_Some (digit c)) || Ascii.eqb c "."%char) v.

Fixpoint insert_sorted (v : string) (l : list string) : list string :=
  match l with
  | [] => [v]
  | x :: l' => if lex_gt (release v 0%N) (release x 0%N)
               then x :: insert_sorted v l' else v :: l
  end.

Definition sorted (l : list string) : list string :=
  foldr insert_sorted [] l.

Inductive Effect : Type := Keep | Make | Drop.

Definition prefix_of (c : Call) : string :=
  match c with
  | BCreate _ p | BInstall _ p | BRemove p => p
  end.

Definition apply_effect (e : Effect) (p : string) (d : gset string) : gset string :=
  match e with
  | Keep => d
  | Make => {[p]} ∪ d
  | Drop => d ∖ {[p]}
  end.

(** Each request consumes the next line of the script: the job handle,
    the exit status and what happens to the prefix. *)
Definition scripted (cfg : InstallerCfg) (c : Call) (d : gset string)
    (script : list (Z * Z * Effect)) : Reply (list (Z * Z * Effect)) :=
  match script with
  | (job, code, e) :: rest =>
      {| r_job := job; r_code := code;
         r_dirs := apply_effect e (prefix_of c) d; r_backend := rest |}
  | [] => {| r_job := 0; r_code := 1; r_dirs := d; r_backend := [] |}
  end.

Definition collaborators (parse : string → list string) : Collaborators := {|
  Backend := list (Z * Z * Effect);
  ParsedVersion := list N;
  DEFAULT_CHANNEL := "conda-forge";
  os_name := "posix";
  self_pid := 4242;
  parse_conda_version_spec := parse;
  get_prefix_by_name := λ name, "/envs/" +:+ name;
  conda_package_versions := λ name channel,
    if bool_decide (name = "app") then Ok ["0.2.0"; "0.3.0rc1"; "0.1.0"] else Ok [];
  plugin_versions := λ url, ["plug-a"; "plug-b"];
  sort_versions := sorted;
  is_stable_version := stable;
  parse_version := λ v, release v 0%N;
  version_gt := lex_gt;
  get_installed_versions := λ name d s,
    (λ p : string * string, (p.2, "")) <$>
      filter (λ p : string * string, p.1 = name) (elements s);
  get_broken_envs := λ name d s, [];
  backend_run := scripted;
  backend_list := λ cfg prefix d script,
    if bool_decide (prefix ∈ d)
    then [ {| item_name := "python"; item_version := "3.11" |};
           {| item_name := "plug-a"; item_version := "1.0" |};
           {| item_name := "plug-b"; item_version := "2.0" |} ]
    else []
|}.

Definition world (parse : string → list string) (d : gset string)
    (s : gset (string * string)) (l : LockState)
    (script : list (Z * Z * Effect)) : @World (collaborators parse) :=
  @Build_World (collaborators parse) d s l [] [] script.

(** The usual parser: the spec is split on the equals sign, so
    ["app=0.1.0"] has two parts and ["app=0.1.0=py"] three. *)
Definition shop : Collaborators := collaborators split_eq.

(** A parser that pads a bare package name to three parts. *)
Definition lenient_parse (s : string) : list string :=
  match split_eq s with
  | [name] => [name; ""; ""]
  | parts => parts
  end.

Definition lenient_shop : Collaborators := collaborators lenient_parse.

Definition prefix_010 : string := "/envs/app-0.1.0".
Definition prefix_020 : string := "/envs/app-0.2.0".

(** app 0.1.0 is installed with two plugins.  The batched create of
    0.2.0 fails, the create of the pinned package succeeds, the install
    of plug-a fails and the install of plug-b succeeds. *)
Definition fallback_world : @World shop :=
  world split_eq {[ prefix_010 ]} {[ ("app", "0.1.0") ]} Unlocked
    [(11, 1, Keep); (12, 0, Make); (13, 1, Keep); (14, 0, Keep)].


Definition fallback_info : UpdateInfo :=
  {| available_versions := ["0.1.0"; "0.2.0"];
     current_version := "0.1.0";
     latest_version := "0.2.0";
     previous_version := "0.2.0";
     found_versions := ["0.1.0"];
     update_flag := true;
     installed := false |}.

(** app 0.1.0 is on disk; the package manager fails to remove it
    (job 21, exit status 1) and then fails to create it again (job 22,
    exit status 1). *)
Definition broken_restore_world : @World shop :=
  world split_eq {[ prefix_010 ]} {[ ("app", "0.1.0") ]} Unlocked
    [(21, 1, Keep); (22, 1, Keep)].

(** The same, but the second job succeeds. *)
Definition good_restore_world : @World shop :=
  world split_eq {[ prefix_010 ]} {[ ("app", "0.1.0") ]} Unlocked
    [(21, 1, Keep); (22, 0, Make)].

(** Both versions are installed and the latest one is 0.2.0. *)
Definition two_versions_world : @World lenient_shop :=
  world lenient_parse {[ prefix_010; prefix_020 ]}
    {[ ("app", "0.1.0"); ("app", "0.2.0") ]} Unlocked [].

(** The package manager removes the prefix and reports success: job 31,
    exit status 0. *)
Definition clean_remove_world : @World shop :=
  world split_eq {[ prefix_010 ]} {[ ("app", "0.1.0") ]} Unlocked
    [(31, 0, Drop)].

(** The package manager fails (exit status 1) under the job handle 0. *)
Definition failed_remove_world : @World shop :=
  world split_eq {[ prefix_010 ]} {[ ("app", "0.1.0") ]} Unlocked
    [(0, 1, Keep)].

Definition idle_world (l : LockState) : @World shop :=
  world split_eq {[ prefix_010 ]} {[ ("app", "0.1.0") ]} l
    [(41, 0, Drop); (42, 0, Make)].

Definition command_line (command package : string) : CommandLine :=
  {| cl_command := Some command; cl_package := package;
     cl_current_version := None; cl_channel := None;
     cl_plugins := []; cl_dev := false |}.






End Scenario.

(** * Verification *)

Lemma installs_no_create prefix plugins installs :
  Forall2 (is_install_of prefix) plugins installs → create_codes installs = [].
Proof.
  induction 1 as [|p e ps es (j & c & ->) _ IH]; [done|]. exact IH.
Qed.


Lemma job_ids_app evs1 evs2 : job_ids (evs1 ++ evs2) = job_ids evs1 ++ job_ids evs2.
Proof. apply omap_app. Qed.

Lemma create_codes_app evs1 evs2 :
  create_codes (evs1 ++ evs2) = create_codes evs1 ++ create_codes evs2.
Proof. apply omap_app. Qed.


Section Facts.
Context `{Collaborators}.

Lemma bind_ok {A B} (m : M A) (k : A → M B) w a w1 :
  m w = (Ok a, w1) → (m ≫= k) w = k a w1.
Proof. intros E. unfold mbind, M_bind, bind. by rewrite E. Qed.

Lemma bind_raise {A B} (m : M A) (k : A → M B) w e w1 :
  m w = (Raise e, w1) → (m ≫= k) w = (Raise e, w1).
Proof. intros E. unfold mbind, M_bind, bind. by rewrite E. Qed.



Lemma run_job_run installer c w :
  let r := backend_run (inst_cfg installer) c (dirs w) (oracle w) in
  run_job installer c w =
    (Ok (r_job r, {| inst_cfg := inst_cfg installer;
                     _exit_codes := <[r_job r := r_code r]> (_exit_codes installer) |}),
     {| dirs := r_dirs r; sentinels := sentinels w;
        lock_state := lock_state w; stdout := stdout w;
        trace := trace w ++ [event_of c (r_job r) (r_code r)];
        oracle := r_backend r |}).
Proof. reflexivity. Qed.


Lemma list_index_Some x l :
  x ∈ l → ∃ i, list_index x l = Some i ∧ (i < length l)%nat.
Proof.
  induction l as [|y l IH]; intros Hin; [by apply elem_of_nil in Hin|].
  simpl. case_bool_decide as Hy.
  - exists O. split; [done|lia].
  - apply elem_of_cons in Hin as [->|Hin]; [done|].
    destruct (IH Hin) as (i & -> & Hi). exists (S i). split; [done|lia].
Qed.

Lemma getitem_pred l i :
  (i < length l)%nat → is_Some (getitem l (Z.of_nat i - 1)).
Proof.
  intros Hi. unfold getitem.
  destruct (Z.ltb_spec (Z.of_nat i - 1) 0) as [Hneg|Hpos].
  - assert (i = O) as -> by lia.
    replace (Z.of_nat 0 - 1 + Z.of_nat (length l))%Z
      with (Z.of_nat (length l - 1)) by lia.
    destruct (Z.leb_spec 0 (Z.of_nat (length l - 1))); [|lia].
    destruct (Z.ltb_spec (Z.of_nat (length l - 1)) (Z.of_nat (length l))); [|lia].
    simpl. apply lookup_lt_is_Some. lia.
  - destruct (Z.leb_spec 0 (Z.of_nat i - 1)); [|lia].
    destruct (Z.ltb_spec (Z.of_nat i - 1) (Z.of_nat (length l))); [|lia].
    simpl. apply lookup_lt_is_Some. lia.
Qed.

(** [check_updates] only reads the world. *)
Lemma check_updates_readonly package dev channel w :
  (Actions.check_updates package dev channel w).2 = w.
Proof.
  unfold Actions.check_updates, unpack3.
  destruct (parse_conda_version_spec package) as [|n [|cur [|b [|? ?]]]];
    try reflexivity.
  unfold mbind, M_bind, bind, mret, M_ret, ret, lift, get_world, raise. simpl.
  destruct (conda_package_versions n channel) as [raw|e]; [|reflexivity].
  case_bool_decide; [|reflexivity].
  destruct (list_index cur _); [|reflexivity].
  destruct (getitem _ _); reflexivity.
Qed.







Lemma truthy_str_append s c t : truthy_str (s +:+ String c t) = true.
Proof. by destruct s. Qed.

Lemma rename_run src dst w :
  rename src dst w =
    if negb (bool_decide (src ∈ dirs w))
    then (Raise FileNotFoundError, with_event w (EvRename src dst))
    else if bool_decide (dst ∈ dirs w)
    then (Raise FileExistsError, with_event w (EvRename src dst))
    else (Ok tt, {| dirs := {[dst]} ∪ dirs w ∖ {[src]};
                    sentinels := sentinels w; lock_state := lock_state w;
                    stdout := stdout w;
                    trace := trace w ++ [EvRename src dst];
                    oracle := oracle w |}).
Proof.
  unfold rename, mbind, M_bind, bind, log, get_world, raise, put_dirs. simpl.
  destruct (bool_decide (src ∈ dirs w)); simpl; [|done].
  by destruct (bool_decide (dst ∈ dirs w)).
Qed.

Lemma rmtree_run path w :
  rmtree path w =
    if bool_decide (path ∈ dirs w)
    then (Ok tt, {| dirs := dirs w ∖ {[path]};
                    sentinels := sentinels w; lock_state := lock_state w;
                    stdout := stdout w;
                    trace := trace w ++ [EvRmtree path];
                    oracle := oracle w |})
    else (Raise FileNotFoundError, with_event w (EvRmtree path)).
Proof.
  unfold rmtree, mbind, M_bind, bind, log, get_world, raise, put_dirs. simpl.
  by destruct (bool_decide (path ∈ dirs w)).
Qed.

Lemma bind_Ok_inv {A B} (m : M A) (k : A → M B) w b w2 :
  (m ≫= k) w = (Ok b, w2) → ∃ a w1, m w = (Ok a, w1) ∧ k a w1 = (Ok b, w2).
Proof.
  unfold mbind, M_bind, bind. destruct (m w) as [[a|e] w1]; [eauto|discriminate].
Qed.

(** C3 (amended). For every run of [restore] in which the existing
    environment was quarantined (renamed to the [-broken] suffix) and
    that returns the exit code of the recreate step, the quarantined copy
    is not on disk afterwards, whatever that exit code is: it is deleted
    after the recreate step if it is still there. *)
Theorem restore_deletes_quarantined_copy package channel w code w' evs src dst :
  Actions.restore package channel w = (Ok code, w') →
  trace w' = trace w ++ evs →
  EvRename src dst ∈ evs →
  (dst ∉ dirs w')
  ∧ (∃ name version,
       parse_conda_version_spec package = [name; version]
       ∧ src = get_prefix_by_name (name +:+ "-" +:+ version)
       ∧ dst = src +:+ "-broken")
  ∧ ∃ job, EvCreate [package] src job code ∈ evs.
Proof.
  unfold Actions.restore, unpack2.
  destruct (parse_conda_version_spec package) as [|n [|v [|? ?]]] eqn:Hp;
    try (intros Hx; by inversion Hx).
  intros Hrun Ht Hin.
  apply bind_Ok_inv in Hrun as ([? ?] & ? & [= <- <- <-] & Hrun).
  apply bind_Ok_inv in Hrun as (present & ? & [= <- <-] & Hrun).
  set (prefix := get_prefix_by_name (n +:+ "-" +:+ v)) in *.
  apply bind_Ok_inv in Hrun as ([job_id_remove inst] & w1 & E1 & Hrun).
  apply bind_Ok_inv in Hrun as (still_there & w2 & E2 & Hrun).
  apply bind_Ok_inv in Hrun as (broken_prefix & w3 & E3 & Hrun).
  apply bind_Ok_inv in Hrun as ([job_id_restore inst'] & w4 & E4 & Hrun).
  apply bind_Ok_inv in Hrun as (leftover & w5 & E5 & Hrun).
  apply bind_Ok_inv in Hrun as ([] & w6 & E6 & Hrun).
  unfold installer_create in E4. rewrite run_job_run in E4.
  injection E4 as <- <- <-.
  assert (code = r_code (backend_run (inst_cfg inst) (BCreate [package] prefix)
                           (dirs w3) (oracle w3)) ∧ w6 = w') as [-> ->].
  { unfold exit_code in Hrun. simpl in Hrun. rewrite lookup_insert_eq in Hrun.
    by injection Hrun as <- <-. }
  set (r2 := backend_run (inst_cfg inst) (BCreate [package] prefix)
               (dirs w3) (oracle w3)) in *.
  assert (∃ pre, trace w3 = trace w ++ pre
                 ∧ (EvRename src dst ∈ pre →
                    src = prefix ∧ dst = prefix +:+ "-broken"
                    ∧ broken_prefix = prefix +:+ "-broken"
                    ∧ truthy_opt job_id_remove = true)
                 ∧ (EvRename src dst ∉ pre → True)) as (pre & Hpre & Hren & _).
  { destruct (bool_decide (prefix ∈ dirs w)).
    - apply bind_Ok_inv in E1 as ([j i] & ? & E1 & [= <- <- <-]).
      unfold installer_remove in E1. rewrite run_job_run in E1.
      injection E1 as <- <- <-. simpl in E2.
      destruct (truthy _) eqn:Hj.
      + injection E2 as <- <-. simpl in E3.
        destruct (bool_decide _).
        * apply bind_Ok_inv in E3 as ([] & ? & E3 & [= <- <-]).
          rewrite rename_run in E3. simpl in E3.
          destruct (negb _); [discriminate|].
          destruct (bool_decide _); [discriminate|].
          injection E3 as <-. simpl.
          eexists. rewrite <- app_assoc. split; [reflexivity|].
          split; [|done]. simpl.
          rewrite !elem_of_cons, elem_of_nil.
          intros [?|[[= -> ->]|[]]]; [discriminate|done].
        * injection E3 as <- <-. simpl. eexists. split; [reflexivity|].
          split; [|done]. rewrite list_elem_of_singleton. discriminate.
      + injection E2 as <- <-. injection E3 as <- <-. simpl.
        eexists. split; [reflexivity|].
        split; [|done]. rewrite list_elem_of_singleton. discriminate.
    - injection E1 as <- <- <-. injection E2 as <- <-. injection E3 as <- <-.
      exists []. rewrite app_nil_r. split; [done|].
      split; [|done]. intros Hx. by apply elem_of_nil in Hx. }
  assert (∃ post, trace w' = trace w3 ++
                    EvCreate [package] prefix (r_job r2) (r_code r2) :: post
                  ∧ (EvRename src dst ∉ post)
                  ∧ (broken_prefix = prefix +:+ "-broken" →
                     truthy_opt job_id_remove = true →
                     prefix +:+ "-broken" ∉ dirs w'))
    as (post & Hpost & Hnopost & Hgone).
  { destruct (truthy_str broken_prefix && truthy_opt job_id_remove) eqn:Hcond.
    - injection E5 as <- <-. simpl in E6.
      destruct (bool_decide (broken_prefix ∈ r_dirs r2)) eqn:Hleft.
      + apply bind_Ok_inv in E6 as ([] & ? & [= <-] & E6).
        rewrite rmtree_run in E6. simpl in E6. rewrite Hleft in E6.
        injection E6 as <-. simpl. exists [EvRmtree broken_prefix].
        rewrite <- app_assoc. split; [done|].
        split; [rewrite list_elem_of_singleton; discriminate|].
        intros -> _ Hx. apply elem_of_difference in Hx as [_ Hx].
        apply Hx. by apply elem_of_singleton.
      + injection E6 as <-. simpl. exists [].
        split; [done|]. split; [apply not_elem_of_nil|].
        intros -> _. by apply bool_decide_eq_false_1 in Hleft.
    - injection E5 as <- <-. injection E6 as <-. simpl. exists [].
      split; [done|]. split; [apply not_elem_of_nil|].
      intros -> Hj. rewrite Hj, truthy_str_append in Hcond. discriminate. }
  rewrite Hpost, Hpre, <- app_assoc in Ht. apply app_inv_head in Ht. subst evs.
  rewrite elem_of_app, elem_of_cons in Hin.
  destruct Hin as [Hin|[?|?]]; [|discriminate|done].
  destruct (Hren Hin) as (-> & -> & Hb & Hj).
  split; [by apply Hgone|].
  split; [by exists n, v|].
  exists (r_job r2). rewrite elem_of_app, elem_of_cons. auto.
Qed.

Lemma remove_other_sentinels_run package_name latest found : ∀ w,
  ∃ w', Actions.remove_other_sentinels package_name latest found w = (Ok tt, w')
    ∧ trace w' = trace w ++
        map (EvRemoveSentinel package_name)
          (List.filter (λ v, negb (bool_decide (v = latest))) found)
    ∧ dirs w' = dirs w ∧ oracle w' = oracle w
    ∧ lock_state w' = lock_state w ∧ stdout w' = stdout w
    ∧ (∀ v, (package_name, v) ∈ sentinels w → v ∉ found ∨ v = latest →
            (package_name, v) ∈ sentinels w').
Proof.
  induction found as [|version rest IH]; intros w.
  - exists w. simpl. rewrite app_nil_r. repeat split; auto.
  - simpl. case_bool_decide as Hv; simpl.
    + destruct (IH w) as (w' & E & Ht & Hd & Ho & Hl & Hs & Hk).
      exists w'. erewrite bind_ok by reflexivity.
      repeat split; try done.
      intros v Hin [Hnot| ->]; apply Hk; auto.
      left. intros Hx. apply Hnot. by apply elem_of_cons; right.
    + unfold remove_sentinel_file.
      erewrite bind_ok by reflexivity.
      match goal with |- context [Actions.remove_other_sentinels _ _ _ ?w1] =>
        destruct (IH w1) as (w' & E & Ht & Hd & Ho & Hl & Hs & Hk)
      end.
      exists w'. simpl in *.
      split; [done|]. split; [by rewrite Ht, <- app_assoc|].
      repeat split; try done.
      intros v Hin Hv'. apply Hk.
      * apply elem_of_difference. split; [done|].
        rewrite elem_of_singleton. intros [= ->].
        destruct Hv' as [Hnot| ->]; [|done].
        apply Hnot. apply elem_of_cons. by left.
      * destruct Hv' as [Hnot| ->]; [left|by right].
        intros Hx. apply Hnot. apply elem_of_cons. by right.
Qed.

Lemma remove_each_frame prefixes : ∀ installer failed w r w',
  Actions.remove_each installer prefixes failed w = (r, w') →
  sentinels w' = sentinels w
  ∧ ∃ evs, trace w' = trace w ++ evs ∧ Forall is_remove_job evs.
Proof.
  induction prefixes as [|prefix rest IH]; intros installer failed w r w'.
  - intros [= <- <-]. split; [done|]. exists []. by rewrite app_nil_r.
  - simpl. unfold installer_remove.
    erewrite bind_ok by apply run_job_run. cbv beta iota.
    unfold exit_code. simpl. rewrite lookup_insert_eq.
    erewrite bind_ok by reflexivity.
    intros Hrun. apply IH in Hrun as (Hs & evs & Ht & Hf). simpl in *.
    split; [done|]. eexists. rewrite Ht, <- app_assoc. split; [done|].
    constructor; [by eexists _, _, _|done].
Qed.

Lemma clean_all_frame package w r w' :
  Actions.clean_all package w = (r, w') →
  sentinels w' = sentinels w
  ∧ ∃ evs, trace w' = trace w ++ evs ∧ Forall is_remove_job evs.
Proof.
  unfold Actions.clean_all, unpack2.
  destruct (parse_conda_version_spec package) as [|n [|v [|? ?]]];
    try (intros [= <- <-]; split; [done|]; exists []; by rewrite app_nil_r).
  erewrite bind_ok by reflexivity. cbv beta iota.
  erewrite bind_ok by reflexivity.
  match goal with |- context [Actions.remove_each ?i ?ps ?f] =>
    destruct (Actions.remove_each i ps f w) as [[failed|e] w1] eqn:E
  end.
  - erewrite bind_ok by exact E. intros [= <- <-]. by apply remove_each_frame in E.
  - erewrite bind_raise by exact E. intros [= <- <-]. by apply remove_each_frame in E.
Qed.

(** C4. For every run of the check-updates-and-clean operation, Sentinels
    are removed only for found installed versions different from
    [latest_version], and only when [latest_version] is confirmed
    installed; the Sentinel of the version equal to [latest_version] is
    never removed. *)
Theorem check_updates_clean_keeps_latest_sentinel
    package dev channel w r w' evs :
  Actions.check_updates_clean_and_launch package dev channel w = (r, w') →
  trace w' = trace w ++ evs →
  (∀ n v, EvRemoveSentinel n v ∈ evs →
     ∃ version res,
       parse_conda_version_spec package = [n; version]
       ∧ Actions.check_updates n dev channel w = (Ok res, w)
       ∧ installed res = true
       ∧ v ∈ found_versions res
       ∧ v ≠ latest_version res)
  ∧ (∀ n version res,
       parse_conda_version_spec package = [n; version] →
       Actions.check_updates n dev channel w = (Ok res, w) →
       (n, latest_version res) ∈ sentinels w →
       (n, latest_version res) ∈ sentinels w').
Proof.
  unfold Actions.check_updates_clean_and_launch, unpack2.
  intros Hrun Ht.
  assert (∀ r0, (r0, w) = (r, w') →
    (∀ n v, EvRemoveSentinel n v ∈ evs → False) ∧ sentinels w' = sentinels w)
    as Hraise.
  { intros r0 [= <- <-]. assert (evs = []) as ->.
    { apply (app_inv_head (trace w)). by rewrite <- Ht, app_nil_r. }
    split; [|done]. intros ?? Hx. by apply elem_of_nil in Hx. }
  destruct (parse_conda_version_spec package) as [|n [|v [|? ?]]] eqn:Hp;
    try (destruct (Hraise _ Hrun) as [Hno Hs];
         split; [intros ?? Hx; by destruct (Hno _ _ Hx)|intros; by rewrite Hs]).
  erewrite bind_ok in Hrun by reflexivity. cbv beta iota in Hrun.
  pose proof (check_updates_readonly n dev channel w) as Hro.
  destruct (Actions.check_updates n dev channel w) as [[res|e] wc] eqn:Hc;
    simpl in Hro; subst wc.
  2:{ erewrite bind_raise in Hrun by exact Hc.
      destruct (Hraise _ Hrun) as [Hno Hs].
      split; [intros ?? Hx; by destruct (Hno _ _ Hx)|intros; by rewrite Hs]. }
  erewrite bind_ok in Hrun by exact Hc.
  destruct (installed res) eqn:Hinst.
  2:{ destruct (Hraise _ Hrun) as [Hno Hs].
      split; [intros ?? Hx; by destruct (Hno _ _ Hx)|intros; by rewrite Hs]. }
  destruct (remove_other_sentinels_run n (latest_version res) (found_versions res) w)
    as (w1 & E & Ht1 & _ & _ & _ & _ & Hk).
  erewrite bind_ok in Hrun by exact E.
  apply clean_all_frame in Hrun as (Hs & cevs & Ht2 & Hf).
  rewrite Ht2, Ht1, <- app_assoc in Ht. apply app_inv_head in Ht. subst evs.
  split.
  - intros n' v' Hin. apply elem_of_app in Hin as [Hin|Hin].
    + apply list_elem_of_fmap in Hin as (v0 & [= -> ->] & Hin).
      apply list_elem_of_In, filter_In in Hin as [Hin Hne].
      exists v, res. repeat split; try done.
      * by apply list_elem_of_In.
      * apply negb_true_iff, bool_decide_eq_false_1 in Hne. done.
    + rewrite Forall_forall in Hf. destruct (Hf _ Hin) as (? & ? & ? & [=]).
  - intros n0 ver res0 [= <- <-] Hc0 Hin.
    rewrite Hc in Hc0. injection Hc0 as <-.
    rewrite Hs. apply Hk; auto.
Qed.

Lemma check_updates_run package dev channel w n cur b raw :
  parse_conda_version_spec package = [n; cur; b] →
  conda_package_versions n channel = Ok raw →
  let versions :=
    if negb dev then List.filter is_stable_version (sort_versions raw)
    else sort_versions raw in
  ∃ previous,
    Actions.check_updates package dev channel w =
      (Ok {| available_versions := versions;
             current_version := cur;
             latest_version := last_or_empty versions;
             previous_version := previous;
             found_versions :=
               map fst (get_installed_versions n (dirs w) (sentinels w));
             update_flag :=
               version_gt (parse_version (last_or_empty versions))
                          (parse_version cur);
             installed :=
               bool_decide
                 (last_or_empty versions
                    ∈ map fst (get_installed_versions n (dirs w) (sentinels w)))
          |}, w)
    ∧ (cur ∉ versions → previous = "")
    ∧ (∀ i, list_index cur versions = Some i →
            getitem versions (Z.of_nat i - 1) = Some previous).
Proof.
  intros Hp Hraw versions.
  unfold Actions.check_updates, unpack3. rewrite Hp.
  erewrite bind_ok by reflexivity. cbv beta iota.
  unfold lift. erewrite bind_ok by (rewrite Hraw; reflexivity).
  cbv zeta. fold versions.
  erewrite bind_ok by reflexivity.
  destruct (decide (cur ∈ versions)) as [Hin|Hin].
  - rewrite (bool_decide_eq_true_2 (cur ∈ versions)) by done.
    destruct (list_index_Some _ _ Hin) as (i & Hi & Hlt).
    destruct (getitem_pred versions i Hlt) as [prev Hprev].
    exists prev. rewrite Hi, Hprev.
    erewrite bind_ok by reflexivity.
    split; [done|]. split; [done|].
    intros i' [= <-]. done.
  - rewrite (bool_decide_eq_false_2 (cur ∈ versions)) by done.
    exists "". erewrite bind_ok by reflexivity.
    split; [done|]. split; [done|].
    intros i Hi. exfalso. apply Hin.
    clear -Hi. revert i Hi. induction versions as [|y l IH]; intros i; simpl; [done|].
    case_bool_decide as Hy.
    + intros _. subst. by left.
    + destruct (list_index cur l); [|done]. intros _. right. by eapply IH.
Qed.

Lemma last_or_empty_last l : last_or_empty l = List.last l "".
Proof. by destruct l. Qed.

(** The part of C6 that holds for every package and channel:
    [latest_version] is the last element of the filtered, sorted list, or
    the empty string when the list is empty, and [update] is
    [parse(latest) > parse(current)]. *)
Lemma check_updates_latest_is_last package dev channel w n cur b raw :
  parse_conda_version_spec package = [n; cur; b] →
  conda_package_versions n channel = Ok raw →
  ∃ d,
    Actions.check_updates package dev channel w = (Ok d, w)
    ∧ current_version d = cur
    ∧ available_versions d =
        (if negb dev then List.filter is_stable_version (sort_versions raw)
         else sort_versions raw)
    ∧ (available_versions d = [] ∧ latest_version d = ""
       ∨ ∃ earlier, available_versions d = earlier ++ [latest_version d])
    ∧ update_flag d =
        version_gt (parse_version (latest_version d))
                   (parse_version (current_version d)).
Proof.
  intros Hp Hraw.
  destruct (check_updates_run package dev channel w n cur b raw Hp Hraw)
    as (previous & E & _).
  eexists. split; [exact E|]. simpl.
  split; [done|]. split; [done|]. split; [|done].
  match goal with |- context [last_or_empty ?l] => destruct (decide (l = [])) as [->|Hne] end.
  - by left.
  - right. rewrite last_or_empty_last.
    match goal with |- context [List.last ?l] =>
      exists (removelast l); by apply app_removelast_last
    end.
Qed.

(** With no version left in the list the assignment of line 132 still
    runs: the flag is whatever the ordering makes of the empty string, and
    the [update = False] of line 128 is never what is returned. *)
Lemma check_updates_update_of_empty package dev channel w n cur b raw :
  parse_conda_version_spec package = [n; cur; b] →
  conda_package_versions n channel = Ok raw →
  (if negb dev then List.filter is_stable_version (sort_versions raw)
   else sort_versions raw) = [] →
  ∃ d,
    Actions.check_updates package dev channel w = (Ok d, w)
    ∧ available_versions d = []
    ∧ latest_version d = ""
    ∧ update_flag d = version_gt (parse_version "") (parse_version cur).
Proof.
  intros Hp Hraw Hempty.
  destruct (check_updates_run package dev channel w n cur b raw Hp Hraw)
    as (previous & E & _).
  eexists. split; [exact E|]. simpl. rewrite Hempty. done.
Qed.

(** The previous version when the current one heads the list: Python's
    index [-1] is the last element. *)
Lemma check_updates_previous_of_first package dev channel w n cur b raw rest :
  parse_conda_version_spec package = [n; cur; b] →
  conda_package_versions n channel = Ok raw →
  (if negb dev then List.filter is_stable_version (sort_versions raw)
   else sort_versions raw) = cur :: rest →
  ∃ d, Actions.check_updates package dev channel w = (Ok d, w)
       ∧ previous_version d = List.last (cur :: rest) "".
Proof.
  intros Hp Hraw Hv.
  destruct (check_updates_run package dev channel w n cur b raw Hp Hraw)
    as (previous & E & _ & Hprev).
  eexists. split; [exact E|]. cbn [previous_version].
  rewrite Hv in Hprev. specialize (Hprev O).
  simpl in Hprev. rewrite bool_decide_eq_true_2 in Hprev by done.
  specialize (Hprev eq_refl). unfold getitem in Hprev.
  change (Z.of_nat 0 - 1)%Z with (-1)%Z in Hprev.
  change (-1 <? 0)%Z with true in Hprev. cbv iota in Hprev.
  replace (-1 + Z.of_nat (length (cur :: rest)))%Z
    with (Z.of_nat (length rest)) in Hprev by (simpl length; lia).
  destruct (Z.leb_spec 0 (Z.of_nat (length rest))); [|lia].
  destruct (Z.ltb_spec (Z.of_nat (length rest)) (Z.of_nat (length (cur :: rest))));
    [|simpl length in *; lia].
  simpl in Hprev. rewrite Nat2Z.id in Hprev.
  clear -Hprev. revert cur Hprev.
  induction rest as [|x rest IH]; intros cur.
  - simpl. by intros [= ->].
  - intros Hx. change (List.last (cur :: x :: rest) "") with (List.last (x :: rest) "").
    apply IH. exact Hx.
Qed.

(** Every run of [remove] that gets past the parsing of the spec:
    the prefix is deleted directly exactly when the job handle is truthy,
    whatever the exit status of the job. *)
Lemma remove_run package w n v :
  parse_conda_version_spec package = [n; v] →
  let prefix := get_prefix_by_name (n +:+ "-" +:+ v) in
  let r := backend_run {| cfg_pinned := None; cfg_channel := None |}
             (BRemove prefix) (dirs w) (oracle w) in
  ∃ res w',
    Actions.remove package w = (res, w')
    ∧ trace w' = trace w ++
        EvRemove prefix (r_job r) (r_code r)
          :: (if truthy (r_job r) then [EvRmtree prefix] else []).
Proof.
  intros Hp prefix r. unfold Actions.remove, unpack2. rewrite Hp.
  erewrite bind_ok by reflexivity. cbv beta iota.
  unfold installer_remove. erewrite bind_ok by apply run_job_run.
  cbv beta iota. fold prefix. unfold CondaInstaller. cbn [inst_cfg event_of].
  fold r.
  destruct (truthy (r_job r)).
  - unfold print. erewrite bind_ok by reflexivity.
    match goal with |- context [mbind _ (rmtree prefix) ?w1] =>
      pose proof (rmtree_run prefix w1) as Hr;
      destruct (bool_decide (prefix ∈ dirs w1))
    end.
    + erewrite bind_ok by exact Hr. eexists _, _. split; [reflexivity|].
      simpl. by rewrite <- app_assoc.
    + erewrite bind_raise by exact Hr. eexists _, _. split; [reflexivity|].
      simpl. by rewrite <- app_assoc.
  - eexists _, _. split; [reflexivity|]. done.
Qed.
End Facts.
Section CliFacts.
Context `{Collaborators}.

(** [check_updates] looks at the directories and the sentinel store only. *)
Lemma check_updates_frame package dev channel w1 w2 :
  dirs w1 = dirs w2 → sentinels w1 = sentinels w2 →
  (Actions.check_updates package dev channel w1).1
    = (Actions.check_updates package dev channel w2).1.
Proof.
  intros Hd Hs. unfold Actions.check_updates, unpack3.
  destruct (parse_conda_version_spec package) as [|n [|cur [|b [|? ?]]]];
    try reflexivity.
  unfold mbind, M_bind, bind, mret, M_ret, ret, lift, get_world, raise. simpl.
  destruct (conda_package_versions n channel) as [raw|e]; [|reflexivity].
  rewrite Hd, Hs.
  match goal with |- context [bool_decide (cur ∈ ?l)] =>
    destruct (bool_decide (cur ∈ l)); [|reflexivity] end.
  destruct (list_index cur _); [|reflexivity].
  destruct (getitem _ _); reflexivity.
Qed.

Lemma check_updates_transfer package dev channel w1 w2 data :
  dirs w1 = dirs w2 → sentinels w1 = sentinels w2 →
  Actions.check_updates package dev channel w1 = (Ok data, w1) →
  Actions.check_updates package dev channel w2 = (Ok data, w2).
Proof.
  intros Hd Hs E.
  pose proof (check_updates_frame package dev channel w1 w2 Hd Hs) as Hf.
  pose proof (check_updates_readonly package dev channel w2) as Hr.
  rewrite E in Hf. simpl in Hf.
  destruct (Actions.check_updates package dev channel w2) as [r w]. simpl in *.
  congruence.
Qed.

(** The namespace of a [check-updates] command line. *)
Lemma parse_args_check_updates cl :
  cl_command cl = Some "check-updates" →
  cl_current_version cl = None →
  cl_plugins cl = [] →
  Cli.parse_args cl =
    Ok (<["dev" := ABool (cl_dev cl)]>
          (<["channel" := AStr (default DEFAULT_CHANNEL (cl_channel cl))]>
             {[ "command" := AStr "check-updates";
                "package" := AStr (cl_package cl) ]})).
Proof.
  destruct cl as [cmd pkg cv ch pl dev]. simpl. intros -> -> ->.
  unfold Cli.parse_args. simpl.
  destruct ch, dev; reflexivity.
Qed.

Lemma execute_check_updates package channel dev lock_created w data :
  Actions.check_updates package dev channel w = (Ok data, w) →
  Cli._execute
    (<["dev" := ABool dev]>
       (<["channel" := AStr channel]>
          {[ "command" := AStr "check-updates"; "package" := AStr package ]}))
    lock_created w
  = (Ok tt, {| dirs := dirs w; sentinels := sentinels w;
               lock_state := lock_state w;
               stdout := stdout w ++ [OutJson data];
               trace := trace w; oracle := oracle w |}).
Proof.
  intros E. unfold Cli._execute.
  erewrite bind_ok by reflexivity.
  rewrite bool_decide_eq_true_2 by done.
  erewrite bind_ok by reflexivity.
  erewrite bind_ok by reflexivity.
  erewrite bind_ok by reflexivity.
  erewrite bind_ok by exact E.
  reflexivity.
Qed.

Lemma clear_stale_lock_run w :
  ∃ w' clears,
    Cli.clear_stale_lock w = (Ok tt, w')
    ∧ dirs w' = dirs w ∧ sentinels w' = sentinels w
    ∧ stdout w' = stdout w ∧ oracle w' = oracle w
    ∧ trace w' = trace w ++ clears
    ∧ Forall (eq EvClearLock) clears.
Proof.
  unfold Cli.clear_stale_lock, try_except, Cli.rmtree_lock_ignore_errors,
    Cli.unlink_lock.
  unfold mbind, M_bind, bind, mret, M_ret, ret, get_world, log, raise, put_lock.
  simpl.
  destruct (bool_decide (os_name = "nt")).
  - destruct (Cli.lock_isdir (lock_state w)); simpl.
    + destruct (Cli.removable (lock_state w)); simpl;
        eexists _, [EvClearLock]; repeat split; auto.
    + eexists _, []. rewrite app_nil_r. repeat split; auto.
  - destruct (Cli.lock_islink (lock_state w)); simpl.
    + destruct (Cli.removable (lock_state w)); simpl;
        eexists _, [EvClearLock]; repeat split; auto.
    + eexists _, []. rewrite app_nil_r. repeat split; auto.
Qed.

Lemma lock_lock_run w :
  Cli.lock_lock w =
    match lock_state w with
    | Unlocked =>
        (Ok true, {| dirs := dirs w; sentinels := sentinels w;
                     lock_state := Held self_pid; stdout := stdout w;
                     trace := trace w ++ [EvLock]; oracle := oracle w |})
    | Held _ => (Ok false, with_event w EvLock)
    | Corrupted _ _ => (Raise LockError, with_event w EvLock)
    end.
Proof.
  unfold Cli.lock_lock, mbind, M_bind, bind, log, get_world, put_lock, raise,
    with_event.
  simpl. destruct (lock_state w); reflexivity.
Qed.

Lemma handle_check_updates package channel dev lock_created w data :
  Actions.check_updates package dev channel w = (Ok data, w) →
  Cli._handle_excecute
    (<["dev" := ABool dev]>
       (<["channel" := AStr channel]>
          {[ "command" := AStr "check-updates"; "package" := AStr package ]}))
    lock_created w
  = (Ok tt, {| dirs := dirs w; sentinels := sentinels w;
               lock_state := lock_state w;
               stdout := stdout w ++ [OutJson data];
               trace := trace w; oracle := oracle w |}).
Proof.
  intros E. unfold Cli._handle_excecute, try_except.
  by rewrite (execute_check_updates _ _ _ _ _ _ E).
Qed.

(** C8 (amended). For every invocation of the CLI with the check-updates
    command, [main] attempts to acquire the Process Lock once, as it does
    for every subcommand, and the check-updates result is produced
    whatever the state of the lock: free, held by another process or
    unreadable.  The path never releases the lock. *)
Theorem check_updates_cli_runs_whatever_the_lock cl w data :
  cl_command cl = Some "check-updates" →
  cl_current_version cl = None →
  cl_plugins cl = [] →
  Actions.check_updates (cl_package cl) (cl_dev cl)
    (default DEFAULT_CHANNEL (cl_channel cl)) w = (Ok data, w) →
  ∃ w' clears,
    Cli.main cl w = (Ok tt, w')
    ∧ stdout w' = stdout w ++ [OutJson data]
    ∧ dirs w' = dirs w ∧ sentinels w' = sentinels w
    ∧ trace w' = trace w ++ EvLock :: clears
    ∧ Forall (eq EvClearLock) clears.
Proof.
  intros Hcmd Hcv Hpl Hcheck. unfold Cli.main.
  rewrite (parse_args_check_updates cl Hcmd Hcv Hpl).
  erewrite bind_ok by reflexivity.
  unfold try_except_else. rewrite lock_lock_run.
  destruct (lock_state w) as [|pid|kind rm] eqn:Hl.
  - erewrite handle_check_updates
      by (eapply (check_updates_transfer _ _ _ w); [| |exact Hcheck]; done).
    eexists _, []. repeat split; auto.
  - erewrite handle_check_updates
      by (eapply (check_updates_transfer _ _ _ w); [| |exact Hcheck]; done).
    eexists _, []. repeat split; auto.
  - cbn [is_Exception].
    destruct (clear_stale_lock_run (with_event w EvLock))
      as (w2 & clears & E & Hd & Hs & Ho & Hb & Ht & Hf).
    erewrite bind_ok by exact E.
    erewrite handle_check_updates
      by (eapply (check_updates_transfer _ _ _ w); [| |exact Hcheck]; by symmetry).
    eexists _, clears. simpl in *.
    split; [done|]. split; [by rewrite Ho|].
    split; [done|]. split; [done|].
    split; [by rewrite Ht, <- app_assoc|done].
Qed.


Lemma execute_unlocked args command lock_created w :
  args !! "command" = Some (AStr command) →
  command ≠ "check-updates" →
  default false lock_created = false →
  Cli._execute args lock_created w
  = (Ok tt, {| dirs := dirs w; sentinels := sentinels w;
               lock_state := lock_state w;
               stdout := stdout w ++ [OutText "ALREADY RUNNING!"];
               trace := trace w; oracle := oracle w |}).
Proof.
  intros Hc Hne Hl. unfold Cli._execute, Cli.getattr. rewrite Hc.
  erewrite bind_ok by reflexivity.
  rewrite bool_decide_eq_false_2 by (intros [= ?]; done).
  by rewrite Hl.
Qed.

End CliFacts.
Section CliUpdate.
Context `{Collaborators}.

(** The namespace of an [update] command line. *)
Lemma parse_args_update cl :
  cl_command cl = Some "update" →
  Cli.parse_args cl = Raise (SystemExit 2)
  ∨ Cli.parse_args cl =
      Ok (<["dev" := ABool (cl_dev cl)]>
            (<["plugins" := AList (cl_plugins cl)]>
               (<["channel" := AStr (default DEFAULT_CHANNEL (cl_channel cl))]>
                  {[ "command" := AStr "update";
                     "package" := AStr (cl_package cl) ]}))).
Proof.
  destruct cl as [cmd pkg cv ch pl dev]. simpl. intros ->.
  unfold Cli.parse_args. simpl.
  destruct cv; [left; by destruct ch, pl, dev|right].
  destruct ch, pl, dev; reflexivity.
Qed.

Lemma execute_update_raises package channel plugins dev w :
  Cli._execute
    (<["dev" := ABool dev]>
       (<["plugins" := AList plugins]>
          (<["channel" := AStr channel]>
             {[ "command" := AStr "update"; "package" := AStr package ]})))
    (Some true) w
  = (Raise (AttributeError "current_version"),
     {| dirs := dirs w; sentinels := sentinels w;
        lock_state := lock_state w;
        stdout := stdout w ++ [OutText "RUNNING"];
        trace := trace w; oracle := oracle w |}).
Proof. reflexivity. Qed.

(** C10. For every invocation of the CLI [update] subcommand no
    installer create or install is performed and no Sentinel is written:
    the directories, the sentinel store and the package manager are left
    as they were and the only calls made concern the lock.  The namespace
    of the subcommand has no attribute [stable], and the update branch of
    the dispatcher raises [AttributeError] before it completes. *)
Theorem update_cli_never_installs cl w r w' :
  cl_command cl = Some "update" →
  Cli.main cl w = (r, w') →
  dirs w' = dirs w ∧ sentinels w' = sentinels w ∧ oracle w' = oracle w
  ∧ (∃ evs, trace w' = trace w ++ evs
            ∧ Forall (λ e, e = EvLock ∨ e = EvClearLock) evs)
  ∧ (∀ args, Cli.parse_args cl = Ok args →
       args !! "stable" = None
       ∧ ∀ w1, ∃ attr w2,
           Cli._execute args (Some true) w1 = (Raise (AttributeError attr), w2)).
Proof.
  intros Hcmd Hrun.
  destruct (parse_args_update cl Hcmd) as [Hargs|Hargs].
  { unfold Cli.main in Hrun. rewrite Hargs in Hrun.
    erewrite bind_raise in Hrun by reflexivity. injection Hrun as <- <-.
    repeat split; try done.
    - exists []. by rewrite app_nil_r.
    - rewrite Hargs in *. discriminate.
    - rewrite Hargs in *. discriminate. }
  assert (∀ args, Cli.parse_args cl = Ok args →
       args !! "stable" = None
       ∧ ∀ w1, ∃ attr w2,
           Cli._execute args (Some true) w1 = (Raise (AttributeError attr), w2))
    as Hbranch.
  { intros args Ha. rewrite Hargs in Ha. injection Ha as <-.
    split; [done|]. intros w1. eexists _, _. apply execute_update_raises. }
  unfold Cli.main in Hrun. rewrite Hargs in Hrun.
  erewrite bind_ok in Hrun by reflexivity.
  unfold try_except_else in Hrun. rewrite lock_lock_run in Hrun.
  destruct (lock_state w) as [|pid|kind rm] eqn:Hl.
  - unfold Cli._handle_excecute, try_except in Hrun.
    rewrite execute_update_raises in Hrun. simpl in Hrun.
    injection Hrun as <- <-. simpl.
    split; [done|]. split; [done|]. split; [done|]. split; [|exact Hbranch].
    exists [EvLock]. split; [done|]. constructor; auto.
  - unfold Cli._handle_excecute, try_except in Hrun.
    erewrite (execute_unlocked _ "update" (Some false)) in Hrun; [|done..].
    injection Hrun as <- <-. simpl.
    split; [done|]. split; [done|]. split; [done|]. split; [|exact Hbranch].
    exists [EvLock]. split; [done|]. constructor; auto.
  - cbn [is_Exception] in Hrun.
    destruct (clear_stale_lock_run (with_event w EvLock))
      as (w2 & clears & E & Hd & Hs & Ho & Hb & Ht & Hf).
    erewrite bind_ok in Hrun by exact E.
    unfold Cli._handle_excecute, try_except in Hrun.
    erewrite (execute_unlocked _ "update" None) in Hrun; [|done..].
    injection Hrun as <- <-. simpl in *.
    split; [done|]. split; [done|]. split; [done|]. split; [|exact Hbranch].
    exists (EvLock :: clears). rewrite Ht, <- app_assoc. split; [done|].
    constructor; [auto|].
    eapply Forall_impl; [exact Hf|]. intros ? <-. auto.
Qed.
End CliUpdate.

(** * The theorems at work on concrete runs *)

Import Scenario.

Ltac by_computation :=
  match goal with
  | |- ?P => apply (@bool_decide_unpack P _); vm_compute; exact I
  end.







(** C3, as stated, fails on this run: the environment was quarantined,
    the recreate step failed with exit code 1, and the quarantined copy
    was deleted all the same; nothing is left on disk. *)
Lemma restore_loses_quarantined_copy :
  let run := Actions.restore (H:=shop) "app=0.1.0" "conda-forge"
               broken_restore_world in
  run.1 = Ok 1
  ∧ trace run.2 =
      [ EvRemove prefix_010 21 1;
        EvRename prefix_010 "/envs/app-0.1.0-broken";
        EvCreate ["app=0.1.0"] prefix_010 22 1;
        EvRmtree "/envs/app-0.1.0-broken" ]
  ∧ dirs run.2 = ∅
  ∧ "/envs/app-0.1.0-broken" ∉ dirs run.2.
Proof.
  cbv zeta. split; [vm_compute; reflexivity|].
  split; [vm_compute; reflexivity|].
  split; [vm_compute; reflexivity|].
  by_computation.
Qed.

Lemma good_restore_run :
  Actions.restore (H:=shop) "app=0.1.0" "conda-forge" good_restore_world
  = (Ok 0,
     @Build_World shop {[ prefix_010 ]} {[ ("app", "0.1.0") ]} Unlocked
       [OutText "removing /envs/app-0.1.0-broken"]
       [ EvRemove prefix_010 21 1;
         EvRename prefix_010 "/envs/app-0.1.0-broken";
         EvCreate ["app=0.1.0"] prefix_010 22 0;
         EvRmtree "/envs/app-0.1.0-broken" ]
       []).
Proof. vm_compute. reflexivity. Qed.

Lemma restore_deletes_quarantined_copy_witness :
  EvRename prefix_010 "/envs/app-0.1.0-broken"
    ∈ [ EvRemove prefix_010 21 1;
        EvRename prefix_010 "/envs/app-0.1.0-broken";
        EvCreate ["app=0.1.0"] prefix_010 22 0;
        EvRmtree "/envs/app-0.1.0-broken" ]
  ∧ "/envs/app-0.1.0-broken" ∉ ({[ prefix_010 ]} : gset string).
Proof.
  assert (EvRename prefix_010 "/envs/app-0.1.0-broken"
    ∈ [ EvRemove prefix_010 21 1;
        EvRename prefix_010 "/envs/app-0.1.0-broken";
        EvCreate ["app=0.1.0"] prefix_010 22 0;
        EvRmtree "/envs/app-0.1.0-broken" ]) as Hin by by_computation.
  split; [exact Hin|].
  exact (proj1 (restore_deletes_quarantined_copy (H:=shop)
                  "app=0.1.0" "conda-forge" good_restore_world 0 _ _ _ _
                  good_restore_run eq_refl Hin)).
Defined.

(** The run of the check-updates-and-clean operation in
    [two_versions_world]: the Sentinel of 0.1.0 is removed, that of the
    latest version 0.2.0 stays, and [clean_all] then fails to unpack the
    spec of the bare package name. *)
Lemma two_versions_run :
  Actions.check_updates_clean_and_launch (H:=lenient_shop) "app=0.1.0" false
    "conda-forge" two_versions_world
  = (Raise ValueError,
     @Build_World lenient_shop {[ prefix_010; prefix_020 ]}
       {[ ("app", "0.2.0") ]} Unlocked [] [EvRemoveSentinel "app" "0.1.0"] []).
Proof. vm_compute. reflexivity. Qed.

Lemma check_updates_clean_keeps_latest_sentinel_witness :
  EvRemoveSentinel "app" "0.1.0" ∈ [EvRemoveSentinel "app" "0.1.0"]
  ∧ (∃ version res,
       lenient_parse "app=0.1.0" = ["app"; version]
       ∧ Actions.check_updates (H:=lenient_shop) "app" false "conda-forge"
           two_versions_world = (Ok res, two_versions_world)
       ∧ installed res = true
       ∧ "0.1.0" ∈ found_versions res
       ∧ "0.1.0" ≠ latest_version res).
Proof.
  assert (EvRemoveSentinel "app" "0.1.0" ∈ [EvRemoveSentinel "app" "0.1.0"])
    as Hin by by_computation.
  split; [exact Hin|].
  exact (proj1 (check_updates_clean_keeps_latest_sentinel (H:=lenient_shop)
                  "app=0.1.0" false "conda-forge" two_versions_world _ _
                  [EvRemoveSentinel "app" "0.1.0"] two_versions_run eq_refl)
               "app" "0.1.0" Hin).
Defined.

(** C5 fails on the code: 0.1.0 is the first element of the filtered,
    sorted list [0.1.0; 0.2.0], nothing precedes it, and [check_updates]
    reports the last element 0.2.0 as the previous version. *)
Theorem check_updates_previous_wraps_around :
  (Actions.check_updates (H:=shop) "app=0.1.0=py" false "conda-forge"
     fallback_world).1
  = Ok {| available_versions := ["0.1.0"; "0.2.0"];
          current_version := "0.1.0";
          latest_version := "0.2.0";
          previous_version := "0.2.0";
          found_versions := ["0.1.0"];
          update_flag := true;
          installed := false |}.
Proof. vm_compute. reflexivity. Qed.


(** C7 fails on the code: the package manager removes the prefix and
    reports success (exit status 0) under the job handle 31; [remove]
    tests the handle, not the exit status, and goes on to delete the
    prefix directly, which is no longer there. *)
Theorem remove_deletes_after_backend_success :
  let run := Actions.remove (H:=shop) "app=0.1.0" clean_remove_world in
  run.1 = Raise FileNotFoundError
  ∧ trace run.2 = [EvRemove prefix_010 31 0; EvRmtree prefix_010]
  ∧ stdout run.2 = [OutText "removing /envs/app-0.1.0"].
Proof. cbv zeta. repeat split; vm_compute; reflexivity. Qed.

(** The other direction: the package manager fails (exit status 1) under
    the job handle 0, and [remove] leaves the prefix where it is. *)
Lemma remove_skips_fallback_after_backend_failure :
  let run := Actions.remove (H:=shop) "app=0.1.0" failed_remove_world in
  run.1 = Ok PyNone
  ∧ trace run.2 = [EvRemove prefix_010 0 1]
  ∧ dirs run.2 = {[ prefix_010 ]}.
Proof. cbv zeta. repeat split; vm_compute; reflexivity. Qed.

(** C8, as stated, fails on this run: the lock is free before the CLI
    runs check-updates and held by this process afterwards; [main] took it
    and nothing on this path gives it back. *)
Lemma check_updates_cli_takes_the_lock :
  let run := Cli.main (H:=shop) (command_line "check-updates" "app=0.1.0=py")
               (idle_world Unlocked) in
  run.1 = Ok tt
  ∧ lock_state (idle_world Unlocked) = Unlocked
  ∧ lock_state run.2 = Held 4242
  ∧ trace run.2 = [EvLock]
  ∧ stdout run.2 = [OutJson fallback_info].
Proof. cbv zeta. repeat split; vm_compute; reflexivity. Qed.

Lemma idle_check (l : LockState) :
  Actions.check_updates (H:=shop) "app=0.1.0=py" false "conda-forge" (idle_world l)
  = (Ok fallback_info, idle_world l).
Proof. destruct l; vm_compute; reflexivity. Qed.

Lemma check_updates_cli_runs_whatever_the_lock_witness :
  ∃ w' clears,
    Cli.main (H:=shop) (command_line "check-updates" "app=0.1.0=py")
      (idle_world (Held 77)) = (Ok tt, w')
    ∧ stdout w' = [OutJson fallback_info]
    ∧ trace w' = EvLock :: clears.
Proof.
  destruct (check_updates_cli_runs_whatever_the_lock (H:=shop)
              (command_line "check-updates" "app=0.1.0=py")
              (idle_world (Held 77)) fallback_info
              eq_refl eq_refl eq_refl (idle_check (Held 77)))
    as (w' & clears & E & Hout & _ & _ & Ht & _).
  exists w', clears. split; [exact E|]. split; [exact Hout|exact Ht].
Defined.


(** With the lock in hand the same command line does run the restore. *)
Lemma free_lock_runs_restore :
  let run := Cli.main (H:=shop) (command_line "restore" "app=0.1.0")
               (idle_world Unlocked) in
  run.1 = Ok tt
  ∧ trace run.2 =
      [ EvLock; EvRemove prefix_010 41 0;
        EvCreate ["app=0.1.0"] prefix_010 42 0; EvUnlock ]
  ∧ stdout run.2 = [OutText "RUNNING"].
Proof. cbv zeta. repeat split; vm_compute; reflexivity. Qed.


(** The run of the CLI [update] subcommand with the lock free. *)
Lemma update_cli_run :
  Cli.main (H:=shop) (command_line "update" "app=0.1.0=py") (idle_world Unlocked)
  = (Raise TypeError,
     @Build_World shop {[ prefix_010 ]} {[ ("app", "0.1.0") ]} (Held 4242)
       [OutText "RUNNING"] [EvLock] [(41, 0, Drop); (42, 0, Make)]).
Proof. vm_compute. reflexivity. Qed.

Lemma update_cli_never_installs_witness :
  dirs (idle_world Unlocked) = {[ prefix_010 ]}
  ∧ sentinels (idle_world Unlocked) = {[ ("app", "0.1.0") ]}
  ∧ ∃ evs, [EvLock] = [] ++ evs
           ∧ Forall (λ e, e = EvLock ∨ e = EvClearLock) evs.
Proof.
  destruct (update_cli_never_installs (H:=shop)
              (command_line "update" "app=0.1.0=py") (idle_world Unlocked) _ _
              eq_refl update_cli_run)
    as (Hd & Hs & _ & Hevs & _).
  split; [symmetry; exact Hd|]. split; [symmetry; exact Hs|]. exact Hevs.
Defined.
